(** * show_samples.py: the sprite-lookup sample report

    The script reads [sprite_lookup.json], a JSON object that maps icon ids to
    item objects, prints up to ten sample items for each of four categories
    and finishes with the number of items per category.

    Embedding.
    - An item object is a Python [dict] read by key only ([v['category']],
      [v['name']]): a [gmap] from field names to the text they hold.  A field
      may be absent; reading it then raises [KeyError].
    - The catalog is the [dict] returned by [json.load].  The script iterates
      it ([data.items()], [data.values()]), so insertion order matters: an
      association list in insertion order, whose keys are pairwise distinct
      ([dict_keys_unique]).
    - [categories] is a [dict] that is only updated by key and then sorted:
      a [gmap] from category to count.
    - Exceptions and standard output are threaded by a small monad [py]:
      a computation returns what it printed together with a value or the
      exception that stopped it.
    - [open] and [json.load] are library calls: a file system maps a path to
      a file, and a file either is not JSON or denotes a catalog.  Files that
      are valid JSON of another kind (arrays, numbers, fields that hold
      something else than text) are outside the model. *)

From Stdlib Require Import Ascii Sorted.
From stdpp Require Import gmap strings list fin_maps pretty.

(** ** Exceptions and results *)

Inductive exn : Type :=
  | FileNotFoundError
  | JSONDecodeError
  | KeyError (key : string).

Inductive result (A : Type) : Type :=
  | Ok (a : A)
  | Raise (e : exn).
Arguments Ok {A} a.
Arguments Raise {A} e.

Definition rbind {A B} (k : A → result B) (r : result A) : result B :=
  match r with
  | Ok a => k a
  | Raise e => Raise e
  end.

#[global] Instance result_ret : MRet result := @Ok.
#[global] Instance result_bind : MBind result := @rbind.

(** ** Data *)

(** An item object: field name to text. *)
Abbreviation ItemRecord := (gmap string string).

(** [data]: the catalog, in insertion order. *)
Abbreviation ItemCatalog := (list (string * ItemRecord)).

Definition dict_keys_unique (data : ItemCatalog) : Prop := NoDup (data.*1).

(** [v[key]] on a dict. *)
Definition getitem (v : ItemRecord) (key : string) : result string :=
  match v !! key with
  | Some x => Ok x
  | None => Raise (KeyError key)
  end.

(** ** Sampling

    [[(k, v) for k, v in data.items() if v['category'] == category]]: the
    comprehension visits every item in order and stops at the first
    exception. *)
Fixpoint comprehension (data : ItemCatalog) (category : string)
  : result ItemCatalog :=
  match data with
  | [] => Ok []
  | (k, v) :: rest =>
      c ← getitem v "category";
      tl ← comprehension rest category;
      mret (if String.eqb c category then (k, v) :: tl else tl)
  end.

(** [comprehension[:limit]]; the slice is taken after the whole list is
    built. *)
Definition sampleByCategory (data : ItemCatalog) (category : string)
    (limit : nat) : result ItemCatalog :=
  l ← comprehension data category; mret (firstn limit l).

(** ** Counting

    [[
    categories = {}
    for v in data.values():
        cat = v['category']
        categories[cat] = categories.get(cat, 0) + 1
    ]] *)
Fixpoint count_loop (values : list ItemRecord) (categories : gmap string nat)
  : result (gmap string nat) :=
  match values with
  | [] => Ok categories
  | v :: rest =>
      cat ← getitem v "category";
      count_loop rest (<[cat := default 0 (categories !! cat) + 1]> categories)
  end.

Definition countByCategory (data : ItemCatalog) : result (gmap string nat) :=
  count_loop (data.*2) ∅.

(** ** [sorted(categories.items())]

    Tuples compare lexicographically: first the category (Python compares
    [str] by code point, which on UTF-8 text is the byte order of
    [String.compare]), then the count. *)
Definition tuple_ltb (a b : string * nat) : bool :=
  match String.compare a.1 b.1 with
  | Lt => true
  | Eq => a.2 <? b.2
  | Gt => false
  end.

(** A stable insertion: [x] goes in front of the first element that is not
    smaller than it. *)
Fixpoint insert_sorted (x : string * nat) (l : list (string * nat))
  : list (string * nat) :=
  match l with
  | [] => [x]
  | y :: ys => if tuple_ltb y x then y :: insert_sorted x ys else x :: y :: ys
  end.

Definition sorted (l : list (string * nat)) : list (string * nat) :=
  foldr insert_sorted [] l.

(** ** Standard output and the program monad *)

(** One [print] call of the script. *)
Inductive event : Type :=
  | Banner (text : string)
  | SampleLine (k name : string)
  | CountLine (category : string) (count : nat).

Definition newline : string := String "010"%char EmptyString.

(** The text a [print] call writes, without the line end [print] adds. *)
Definition render (e : event) : string :=
  match e with
  | Banner text => text
  | SampleLine k name => "  Icon" +:+ k +:+ ": " +:+ name
  | CountLine category count =>
      "  " +:+ category +:+ ": " +:+ pretty count +:+ " items"
  end.

Definition stdout_text (out : list event) : string :=
  foldr (λ e acc, render e +:+ newline +:+ acc) EmptyString out.

(** What was printed, and the value or the exception the computation ended
    with. *)
Definition py (A : Type) : Type := list event * result A.

Definition ret {A} (a : A) : py A := ([], Ok a).

Definition bind {A B} (k : A → py B) (m : py A) : py B :=
  match m with
  | (out, Ok a) => let '(out', r) := k a in (out ++ out', r)
  | (out, Raise e) => (out, Raise e)
  end.

Definition lift {A} (r : result A) : py A := ([], r).

Definition print (e : event) : py unit := ([e], Ok tt).

#[global] Instance py_ret : MRet py := @ret.
#[global] Instance py_bind : MBind py := @bind.

Fixpoint for_each {A} (l : list A) (body : A → py unit) : py unit :=
  match l with
  | [] => mret tt
  | x :: xs => body x;; for_each xs body
  end.

(** ** The script *)

Definition sprite_lookup_path : string :=
  "C:\Users\Daniel\Documents\Vibecode\SR\ScapeRune\public\sprite_lookup.json".

Definition weapons_banner : string := "🗡️ SAMPLE WEAPONS:".
Definition armor_banner : string := newline +:+ "🛡️ SAMPLE ARMOR:".
Definition food_banner : string := newline +:+ "🍖 SAMPLE FOOD:".
Definition resources_banner : string := newline +:+ "⛏️ SAMPLE RESOURCES:".
Definition summary_banner : string := newline +:+ "📊 CATEGORY SUMMARY:".

(** A file is text; [json.load] either rejects it or returns the catalog it
    denotes. *)
Inductive file : Type :=
  | NotJSON
  | JSONDocument (data : ItemCatalog).

Definition filesystem : Type := string → option file.

(** [[
    with open(path, 'r') as f:
        data = json.load(f)
    ]] *)
Definition load (fs : filesystem) (path : string) : result ItemCatalog :=
  match fs path with
  | None => Raise FileNotFoundError
  | Some NotJSON => Raise JSONDecodeError
  | Some (JSONDocument data) => Ok data
  end.

(** [print(f"  Icon{k}: {v['name']}")]: the text is built, and the name
    looked up, before anything is printed. *)
Definition print_sample_line (kv : string * ItemRecord) : py unit :=
  name ← lift (getitem kv.2 "name");
  print (SampleLine kv.1 name).

(** The four samples of the script. *)
Definition weapons (data : ItemCatalog) : result ItemCatalog :=
  sampleByCategory data "weapons" 10.
Definition armor (data : ItemCatalog) : result ItemCatalog :=
  sampleByCategory data "armor" 10.
Definition food (data : ItemCatalog) : result ItemCatalog :=
  sampleByCategory data "food" 10.
Definition resources (data : ItemCatalog) : result ItemCatalog :=
  sampleByCategory data "resources" 10.

(** One sample section, the banner being printed before the sample is
    computed:
    [[
    print(banner)
    sample = [(k, v) for k, v in data.items() if v['category'] == ...][:10]
    for k, v in sample:
        print(f"  Icon{k}: {v['name']}")
    ]] *)
Definition sample_section (banner : string) (sample : result ItemCatalog)
  : py unit :=
  print (Banner banner);;
  sample ← lift sample;
  for_each sample print_sample_line.

(** [print(f"  {category}: {count} items")] *)
Definition print_count_line (cc : string * nat) : py unit :=
  print (CountLine cc.1 cc.2).

(** The tally and the summary:
    [[
    for category, count in sorted(categories.items()):
        print(f"  {category}: {count} items")
    ]] *)
Definition summary_section (data : ItemCatalog) : py unit :=
  categories ← lift (countByCategory data);
  print (Banner summary_banner);;
  for_each (sorted (map_to_list categories)) print_count_line.

(** Everything after the load. *)
Definition report (data : ItemCatalog) : py unit :=
  sample_section weapons_banner (weapons data);;
  sample_section armor_banner (armor data);;
  sample_section food_banner (food data);;
  sample_section resources_banner (resources data);;
  summary_section data.

Definition run (path : string) (fs : filesystem) : py unit :=
  data ← lift (load fs path); report data.

Definition main (fs : filesystem) : py unit := run sprite_lookup_path fs.

(** The interpreter exits with status 1 on an uncaught exception. *)
Definition exit_status {A} (p : py A) : nat :=
  match p.2 with
  | Ok _ => 0
  | Raise _ => 1
  end.

Definition example_catalog : ItemCatalog :=
  [("1", {["name" := "Sword"; "category" := "weapons"]});
   ("2", {["name" := "Shield"; "category" := "armor"]});
   ("3", {["name" := "Bread"; "category" := "food"]})].

(** ** Vocabulary of the specification *)

(** The record has a [category] field. *)
Definition has_category (kv : string * ItemRecord) : Prop :=
  is_Some (kv.2 !! "category").

(** The record's [category] field equals [category]. *)
Definition category_is (category : string) (kv : string * ItemRecord) : Prop :=
  kv.2 !! "category" = Some category.

#[global] Instance has_category_dec kv : Decision (has_category kv).
Proof. unfold has_category. apply _. Defined.

#[global] Instance category_is_dec category kv :
  Decision (category_is category kv).
Proof. unfold category_is. apply _. Defined.

(** The entries of the catalog whose category is [category], in catalog
    order. *)
Definition matches (data : ItemCatalog) (category : string) : ItemCatalog :=
  filter (category_is category) data.

(** ** Vocabulary of the properties *)

Definition catalog_without_category : ItemCatalog :=
  [("1", {["name" := "Sword"]})].

(** A file system holding one file. *)
Definition single_file (path : string) (f : file) : filesystem :=
  λ p, if decide (p = path) then Some f else None.

Definition no_files : filesystem := λ _, None.

(** The shape the specification expects of a file: valid JSON in which
    every record has a [name] and a [category]. *)
Definition expected_shape (f : file) : Prop :=
  match f with
  | NotJSON => False
  | JSONDocument data =>
      Forall (λ kv, is_Some (kv.2 !! "name") ∧ has_category kv) data
  end.


(** The number of records among [values] whose category is [c]. *)
Definition occurrences (c : string) (values : list ItemRecord) : nat :=
  length (filter (λ v, v !! "category" = Some c) values).

(** The categories that occur in the catalog, record by record. *)
Definition categories_of (data : ItemCatalog) : list string :=
  omap (λ kv, kv.2 !! "category") data.

(** The sum of the counts of a tally. *)
Definition total (categories : gmap string nat) : nat :=
  map_fold (λ _ count acc, count + acc) 0 categories.

(** Strictly before, in the order Python gives [str]. *)
Definition str_lt (s1 s2 : string) : Prop := String.compare s1 s2 = Lt.

#[global] Instance str_lt_dec : RelDecision str_lt.
Proof. intros s1 s2. unfold str_lt. apply _. Defined.

(** Ordered by key alone. *)
Definition key_lt (a b : string * nat) : Prop := str_lt a.1 b.1.

(** The categories of the count lines, in the order printed. *)
Definition counted_categories (out : list event) : list string :=
  omap (λ e, match e with CountLine c _ => Some c | _ => None end) out.

(** The ids of the sample lines, in the order printed. *)
Definition sampled_ids (out : list event) : list string :=
  omap (λ e, match e with SampleLine k _ => Some k | _ => None end) out.

(** Same id, same name (or none), same category (or none). *)
Definition agree (kv1 kv2 : string * ItemRecord) : Prop :=
  kv1.1 = kv2.1
  ∧ kv1.2 !! "name" = kv2.2 !! "name"
  ∧ kv1.2 !! "category" = kv2.2 !! "category".

(** Both raise the same exception, or both return, with related values. *)
Definition result_rel {A} (R : relation A) (r1 r2 : result A) : Prop :=
  match r1, r2 with
  | Ok a1, Ok a2 => R a1 a2
  | Raise e1, Raise e2 => e1 = e2
  | _, _ => False
  end.

Definition example_catalog_extra : ItemCatalog :=
  [("1", {["name" := "Sword"; "category" := "weapons"; "sprite" := "a.png"]});
   ("2", {["name" := "Shield"; "category" := "armor"; "tier" := "3"]});
   ("3", {["name" := "Bread"; "category" := "food"]})].

(** The ids of all the records of the categories [cs], category by
    category. *)
Definition matching_ids (data : ItemCatalog) (cs : list string) : list string :=
  cs ≫= λ c, (matches data c).*1.

(** ** Vocabulary of the report *)

(** The record has a [name] field. *)
Definition has_name (kv : string * ItemRecord) : Prop :=
  is_Some (kv.2 !! "name").

#[global] Instance has_name_dec kv : Decision (has_name kv).
Proof. unfold has_name. apply _. Defined.

(** The sample sections of the script, in order: banner and category. *)
Definition sections : list (string * string) :=
  [(weapons_banner, "weapons"); (armor_banner, "armor");
   (food_banner, "food"); (resources_banner, "resources")].

(** The sample section of the script for a banner and a category. *)
Definition section_of (data : ItemCatalog) (bc : string * string) : py unit :=
  sample_section bc.1 (sampleByCategory data bc.2 10).

(** The records the section of [category] goes through. *)
Definition sampled (data : ItemCatalog) (category : string) : ItemCatalog :=
  take 10 (matches data category).

(** Every record that a sample section goes through has a name. *)
Definition sampled_named (data : ItemCatalog) : Prop :=
  Forall (λ bc : string * string, Forall has_name (sampled data bc.2)) sections.

(** The sample lines of the records of [sample] that have a name. *)
Definition sample_lines (sample : ItemCatalog) : list event :=
  omap (λ kv, SampleLine kv.1 <$> kv.2 !! "name") sample.

(** What a complete sample section prints. *)
Definition section_lines (data : ItemCatalog) (bc : string * string)
  : list event :=
  Banner bc.1 :: sample_lines (sampled data bc.2).

(** The count lines of a tally, in the order printed. *)
Definition tally_lines (categories : gmap string nat) : list event :=
  (λ cc, CountLine cc.1 cc.2) <$> sorted (map_to_list categories).

(** The category and count of each count line, in the order printed. *)
Definition count_lines (out : list event) : list (string * nat) :=
  omap (λ e, match e with CountLine c n => Some (c, n) | _ => None end) out.

(** The banners, in the order printed. *)
Definition banners (out : list event) : list string :=
  omap (λ e, match e with Banner text => Some text | _ => None end) out.

Definition all_banners : list string :=
  [weapons_banner; armor_banner; food_banner; resources_banner;
   summary_banner].

(** * Properties *)

(** ** The result monad *)

Ltac res_simpl :=
  unfold mbind, mret, result_bind, result_ret; cbn [rbind].

Lemma getitem_Some (v : ItemRecord) key x :
  v !! key = Some x → getitem v key = Ok x.
Proof. unfold getitem. by intros ->. Qed.

Lemma getitem_None (v : ItemRecord) key :
  v !! key = None → getitem v key = Raise (KeyError key).
Proof. unfold getitem. by intros ->. Qed.

Lemma eqb_category_is c category kv :
  kv.2 !! "category" = Some c →
  String.eqb c category = bool_decide (category_is category kv).
Proof.
  intros Hc.
  destruct (String.eqb_spec c category) as [->|Hne].
  - by rewrite bool_decide_eq_true_2.
  - rewrite bool_decide_eq_false_2; [done|].
    unfold category_is. congruence.
Qed.

(** ** Sampling *)

Lemma comprehension_matches data category :
  Forall has_category data →
  comprehension data category = Ok (matches data category).
Proof.
  unfold matches.
  induction 1 as [|[k v] rest [c Hc] _ IH]; [done|].
  cbn [comprehension]. simpl in Hc.
  rewrite (getitem_Some _ _ _ Hc), IH, filter_cons.
  res_simpl.
  rewrite (eqb_category_is c category (k, v) Hc).
  by case_bool_decide; rewrite ?decide_True, ?decide_False by done.
Qed.

Lemma comprehension_KeyError data category :
  Exists (λ kv, ¬ has_category kv) data →
  comprehension data category = Raise (KeyError "category").
Proof.
  induction data as [|[k v] rest IH]; intros Hex; [by inv Hex|].
  cbn [comprehension]. unfold getitem.
  destruct (v !! "category") as [c|] eqn:Hc; [|done].
  res_simpl. rewrite IH; [done|].
  inv Hex; [|done]. exfalso. match goal with H : ¬ _ |- _ => apply H end.
  by exists c.
Qed.

Lemma sampleByCategory_take data category limit :
  Forall has_category data →
  sampleByCategory data category limit
  = Ok (take limit (matches data category)).
Proof.
  intros Hwf. unfold sampleByCategory.
  by rewrite (comprehension_matches _ _ Hwf).
Qed.

(** C1 (as amended): on a catalog in which every record has a [category]
    field, [sampleByCategory] returns the first [limit] entries, in catalog
    order, whose category equals the requested one; all of them when there
    are at most [limit]; the empty list when there is none; and never more
    than [limit] entries. *)
Theorem sampleByCategory_first_matches data category limit :
  Forall has_category data →
  ∃ sample,
    sampleByCategory data category limit = Ok sample
    ∧ sample = take limit (matches data category)
    ∧ sample `sublist_of` data
    ∧ Forall (category_is category) sample
    ∧ length sample ≤ limit
    ∧ (length (matches data category) ≤ limit →
       sample = matches data category)
    ∧ (matches data category = [] → sample = []).
Proof.
  intros Hwf. eexists. split; [by apply sampleByCategory_take|].
  split; [done|]. repeat split.
  - etrans; [apply sublist_take|]. apply sublist_filter.
  - apply Forall_take, Forall_forall. intros kv Hkv.
    by apply list_elem_of_filter in Hkv as [? _].
  - rewrite length_take. lia.
  - apply take_ge.
  - intros ->. by destruct limit.
Qed.

Lemma sampleByCategory_first_matches_witness :
  ∃ sample,
    sampleByCategory example_catalog "weapons" 10 = Ok sample
    ∧ sample = take 10 (matches example_catalog "weapons")
    ∧ sample `sublist_of` example_catalog
    ∧ Forall (category_is "weapons") sample
    ∧ length sample ≤ 10
    ∧ (length (matches example_catalog "weapons") ≤ 10 →
       sample = matches example_catalog "weapons")
    ∧ (matches example_catalog "weapons" = [] → sample = []).
Proof.
  apply (sampleByCategory_first_matches example_catalog "weapons" 10).
  repeat constructor; by eexists.
Defined.

(** C1 (as stated) fails: no entry of this catalog matches [weapons], yet
    the result is a [KeyError], not the empty list. *)
Lemma sampleByCategory_no_match_raises :
  matches catalog_without_category "weapons" = []
  ∧ sampleByCategory catalog_without_category "weapons" 10
    = Raise (KeyError "category")
  ∧ sampleByCategory catalog_without_category "weapons" 10 ≠ Ok [].
Proof. repeat split; [by vm_compute..|]. by vm_compute. Qed.

(** ** The program monad *)

Lemma bind_out {A B} (m : py A) (k : A → py B) :
  (m ≫= k).1
  = m.1 ++ match m.2 with Ok a => (k a).1 | Raise _ => [] end.
Proof.
  destruct m as [out [a|e]]; cbn; [|by rewrite app_nil_r].
  unfold mbind, py_bind, bind. by destruct (k a).
Qed.

Lemma bind_res {A B} (m : py A) (k : A → py B) :
  (m ≫= k).2 = match m.2 with Ok a => (k a).2 | Raise e => Raise e end.
Proof.
  destruct m as [out [a|e]]; cbn; [|done].
  unfold mbind, py_bind, bind. by destruct (k a).
Qed.

Lemma bind_lift_Ok {A B} (a : A) (k : A → py B) : lift (Ok a) ≫= k = k a.
Proof. unfold mbind, py_bind, bind, lift. by destruct (k a). Qed.

Lemma bind_lift_Raise {A B} e (k : A → py B) :
  lift (Raise e) ≫= k = ([], Raise e).
Proof. done. Qed.

Lemma bind_print {B} ev (k : unit → py B) :
  print ev ≫= k = (ev :: (k tt).1, (k tt).2).
Proof. unfold mbind, py_bind, bind, print. by destruct (k tt). Qed.

Lemma run_loaded path fs data :
  fs path = Some (JSONDocument data) → run path fs = report data.
Proof.
  intros Hfile. unfold run, load. rewrite Hfile. apply bind_lift_Ok.
Qed.

Lemma run_load_failure path fs e :
  load fs path = Raise e → run path fs = ([], Raise e).
Proof. intros Hload. unfold run. by rewrite Hload. Qed.

(** ** Loading *)

(** C6: when the path does not exist the program stops with
    [FileNotFoundError], has printed nothing, and exits with a non-zero
    status; and whatever makes the load fail, nothing is printed. *)
Theorem run_missing_file path fs :
  fs path = None →
  load fs path = Raise FileNotFoundError
  ∧ run path fs = ([], Raise FileNotFoundError)
  ∧ stdout_text (run path fs).1 = EmptyString
  ∧ exit_status (run path fs) ≠ 0
  ∧ (∀ fs' e, load fs' path = Raise e →
       (run path fs').1 = [] ∧ (run path fs').2 = Raise e
       ∧ exit_status (run path fs') ≠ 0).
Proof.
  intros Hnone.
  assert (load fs path = Raise FileNotFoundError) as Hload.
  { unfold load. by rewrite Hnone. }
  rewrite (run_load_failure _ _ _ Hload).
  do 4 (split; [done|]).
  intros fs' e Hfail. by rewrite (run_load_failure _ _ _ Hfail).
Qed.

Lemma run_missing_file_witness :
  load no_files sprite_lookup_path = Raise FileNotFoundError
  ∧ run sprite_lookup_path no_files = ([], Raise FileNotFoundError)
  ∧ stdout_text (run sprite_lookup_path no_files).1 = EmptyString
  ∧ exit_status (run sprite_lookup_path no_files) ≠ 0
  ∧ (∀ fs' e, load fs' sprite_lookup_path = Raise e →
       (run sprite_lookup_path fs').1 = []
       ∧ (run sprite_lookup_path fs').2 = Raise e
       ∧ exit_status (run sprite_lookup_path fs') ≠ 0).
Proof. apply (run_missing_file sprite_lookup_path no_files). reflexivity. Defined.




(** ** Records without a category *)

(** C9: when some record of the catalog has no [category] field, every
    sample raises [KeyError]; the program stops in the first (weapons)
    comprehension, after the weapons banner and before any sample or count
    line, and no record is skipped or given a default. *)
Theorem report_KeyError_without_category data :
  Exists (λ kv, ¬ has_category kv) data →
  (∀ category limit,
     sampleByCategory data category limit = Raise (KeyError "category"))
  ∧ report data = ([Banner weapons_banner], Raise (KeyError "category"))
  ∧ exit_status (report data) ≠ 0.
Proof.
  intros Hex.
  assert (∀ category limit,
    sampleByCategory data category limit = Raise (KeyError "category")) as Hs.
  { intros category limit. unfold sampleByCategory.
    by rewrite (comprehension_KeyError _ _ Hex). }
  split; [done|].
  assert (report data = ([Banner weapons_banner], Raise (KeyError "category")))
    as ->; [|done].
  unfold report, weapons, sample_section. by rewrite !Hs.
Qed.

Lemma report_KeyError_without_category_witness :
  (∀ category limit,
     sampleByCategory catalog_without_category category limit
     = Raise (KeyError "category"))
  ∧ report catalog_without_category
    = ([Banner weapons_banner], Raise (KeyError "category"))
  ∧ exit_status (report catalog_without_category) ≠ 0.
Proof.
  apply (report_KeyError_without_category catalog_without_category).
  apply Exists_cons_hd. intros [c Hc]. vm_compute in Hc. discriminate Hc.
Defined.

(** ** The example catalog *)

(** C7: on the three-item catalog the weapons sample is the single entry
    with id [1] (printed as [1], [Sword]), and the counts are one each for
    [armor], [food] and [weapons]. *)
Theorem example_catalog_scenario :
  sampleByCategory example_catalog "weapons" 10
  = Ok [("1", {["name" := "Sword"; "category" := "weapons"]})]
  ∧ (sample_section weapons_banner (weapons example_catalog)).1
    = [Banner weapons_banner; SampleLine "1" "Sword"]
  ∧ countByCategory example_catalog
    = Ok {["armor" := 1; "food" := 1; "weapons" := 1]}.
Proof. repeat split; vm_compute; reflexivity. Qed.

(** ** Counting *)

Lemma occurrences_cons c v values :
  occurrences c (v :: values)
  = (if decide (v !! "category" = Some c) then 1 else 0)
    + occurrences c values.
Proof.
  unfold occurrences. rewrite filter_cons. by case_decide.
Qed.

Lemma occurrences_matches data c :
  occurrences c (data.*2) = length (matches data c).
Proof.
  unfold matches. induction data as [|[k v] rest IH]; [done|].
  rewrite fmap_cons, occurrences_cons, filter_cons, IH.
  unfold category_is at 1. simpl. by repeat case_decide.
Qed.

Lemma occurrences_pos c data :
  0 < occurrences c (data.*2) ↔ c ∈ categories_of data.
Proof.
  rewrite occurrences_matches. unfold categories_of, matches.
  rewrite list_elem_of_omap. split.
  - intros Hlen. destruct (filter _ data) as [|kv l] eqn:Hf; [simpl in *; lia|].
    assert (kv ∈ filter (category_is c) data) as Hin by (rewrite Hf; left).
    apply list_elem_of_filter in Hin as [? ?]. by exists kv.
  - intros (kv & Hin & Hc).
    assert (kv ∈ filter (category_is c) data) as Hin'
      by by apply list_elem_of_filter.
    destruct (filter _ data); [by apply not_elem_of_nil in Hin'|simpl; lia].
Qed.

(** The loop invariant: lookups after the loop, from the tally it started
    with. *)
Lemma count_loop_lookup values :
  ∀ acc : gmap string nat,
  Forall (λ v, is_Some (v !! "category")) values →
  ∃ m, count_loop values acc = Ok m
    ∧ ∀ c, m !! c = match occurrences c values with
                    | 0 => acc !! c
                    | S _ as n => Some (default 0 (acc !! c) + n)
                    end.
Proof.
  induction values as [|v rest IH]; intros acc Hwf.
  { by exists acc. }
  inv Hwf. match goal with H : is_Some _ |- _ => destruct H as [cat Hcat] end.
  cbn [count_loop]. rewrite (getitem_Some _ _ _ Hcat). res_simpl.
  destruct (IH (<[cat := default 0 (acc !! cat) + 1]> acc)) as (m & -> & Hm);
    [done|].
  exists m. split; [done|]. intros c. rewrite Hm, occurrences_cons, Hcat.
  destruct (decide (cat = c)) as [->|Hne].
  - rewrite decide_True, lookup_insert_eq by done. simpl.
    destruct (occurrences c rest); simpl; f_equal; lia.
  - rewrite decide_False, lookup_insert_ne by congruence. done.
Qed.

Lemma total_empty : total ∅ = 0.
Proof. apply map_fold_empty. Qed.

Lemma total_insert_fresh (m : gmap string nat) c n :
  m !! c = None → total (<[c := n]> m) = n + total m.
Proof.
  intros Hc. unfold total. rewrite map_fold_insert_L; [done| |done].
  intros. lia.
Qed.

Lemma total_bump (m : gmap string nat) c :
  total (<[c := default 0 (m !! c) + 1]> m) = total m + 1.
Proof.
  destruct (m !! c) as [n|] eqn:Hc; simpl.
  - rewrite <-insert_delete_eq, total_insert_fresh
      by apply lookup_delete_eq.
    unfold total at 2. rewrite (map_fold_delete_L _ _ c n m); [|intros; lia|done].
    fold (total (delete c m)). lia.
  - rewrite total_insert_fresh by done. lia.
Qed.

Lemma count_loop_total values :
  ∀ acc m, count_loop values acc = Ok m → total m = total acc + length values.
Proof.
  induction values as [|v rest IH]; intros acc m Hm.
  { injection Hm as <-. simpl. lia. }
  cbn [count_loop] in Hm. unfold getitem in Hm.
  destruct (v !! "category") as [cat|]; [|done].
  apply IH in Hm. rewrite Hm, total_bump. simpl. lia.
Qed.

Lemma countByCategory_lookup data :
  Forall has_category data →
  ∃ categories,
    countByCategory data = Ok categories
    ∧ ∀ c, categories !! c = match occurrences c (data.*2) with
                             | 0 => None
                             | S _ as n => Some n
                             end.
Proof.
  intros Hwf. unfold countByCategory.
  destruct (count_loop_lookup (data.*2) ∅) as (m & Hm & Hlookup).
  { apply Forall_fmap. by eapply Forall_impl. }
  exists m. split; [done|]. intros c. rewrite Hlookup, lookup_empty.
  by destruct (occurrences c data.*2).
Qed.

(** C2: on a catalog in which every record has a [category] field,
    [countByCategory] returns a tally whose keys are exactly the categories
    that occur in the catalog, each mapped to the number of records of that
    category; a category that does not occur is not a key. *)
Theorem countByCategory_tally data :
  Forall has_category data →
  ∃ categories,
    countByCategory data = Ok categories
    ∧ dom categories = list_to_set (categories_of data)
    ∧ (∀ c, c ∈ categories_of data →
         categories !! c = Some (length (matches data c)))
    ∧ (∀ c, c ∉ categories_of data → categories !! c = None).
Proof.
  intros Hwf.
  destruct (countByCategory_lookup data Hwf) as (m & Hm & Hlookup).
  exists m. split; [done|].
  assert (∀ c, c ∈ categories_of data →
    m !! c = Some (length (matches data c))) as Hin.
  { intros c Hc%occurrences_pos. rewrite Hlookup.
    rewrite <-occurrences_matches.
    destruct (occurrences c data.*2); [lia|done]. }
  assert (∀ c, c ∉ categories_of data → m !! c = None) as Hout.
  { intros c Hc. rewrite Hlookup.
    destruct (occurrences c data.*2) eqn:Hocc; [done|].
    destruct Hc. apply occurrences_pos. lia. }
  split; [|done].
  apply set_eq. intros c. rewrite elem_of_dom, elem_of_list_to_set.
  destruct (decide (c ∈ categories_of data)) as [Hc|Hc].
  - by rewrite (Hin c Hc).
  - rewrite (Hout c Hc). split; [by intros [??]|done].
Qed.

Lemma countByCategory_tally_witness :
  ∃ categories,
    countByCategory example_catalog = Ok categories
    ∧ dom categories = list_to_set (categories_of example_catalog)
    ∧ (∀ c, c ∈ categories_of example_catalog →
         categories !! c = Some (length (matches example_catalog c)))
    ∧ (∀ c, c ∉ categories_of example_catalog → categories !! c = None).
Proof.
  apply (countByCategory_tally example_catalog).
  repeat constructor; by eexists.
Defined.

(** C3: on a catalog in which every record has a [category] field, the
    counts of [countByCategory] add up to the number of records. *)
Theorem countByCategory_total data :
  Forall has_category data →
  ∃ categories,
    countByCategory data = Ok categories ∧ total categories = length data.
Proof.
  intros Hwf. destruct (countByCategory_lookup data Hwf) as (m & Hm & _).
  exists m. split; [done|].
  apply count_loop_total in Hm. by rewrite Hm, total_empty, length_fmap.
Qed.

Lemma countByCategory_total_witness :
  ∃ categories,
    countByCategory example_catalog = Ok categories
    ∧ total categories = length example_catalog.
Proof.
  apply (countByCategory_total example_catalog).
  repeat constructor; by eexists.
Defined.

(** ** Sorting *)

Lemma compare_refl s : String.compare s s = Eq.
Proof.
  pose proof (String.compare_antisym s s) as Hs.
  by destruct (String.compare s s).
Qed.

Lemma str_lt_le s1 s2 : str_lt s1 s2 → String.le s1 s2.
Proof. unfold str_lt, String.le, String.leb. by intros ->. Qed.

Lemma str_lt_ne s1 s2 : str_lt s1 s2 → s1 ≠ s2.
Proof. unfold str_lt. intros Hlt ->. by rewrite compare_refl in Hlt. Qed.

Lemma le_ne_str_lt s1 s2 : String.le s1 s2 → s1 ≠ s2 → str_lt s1 s2.
Proof.
  unfold str_lt, String.le, String.leb. intros Hle Hne.
  destruct (String.compare s1 s2) eqn:Hcmp; [|done..].
  by apply String.compare_eq_iff in Hcmp.
Qed.

#[global] Instance str_lt_trans : Transitive str_lt.
Proof.
  intros s1 s2 s3 H12 H23. apply le_ne_str_lt.
  - etrans; by apply str_lt_le.
  - intros ->. apply (str_lt_ne _ _ H12).
    apply (anti_symm String.le); by apply str_lt_le.
Qed.

#[global] Instance str_lt_irrefl : Irreflexive str_lt.
Proof. intros s Hs. by apply str_lt_ne in Hs. Qed.

Lemma tuple_ltb_true_keys (x y : string * nat) :
  x.1 ≠ y.1 → tuple_ltb x y = true → str_lt x.1 y.1.
Proof.
  unfold tuple_ltb, str_lt. intros Hne.
  destruct (String.compare x.1 y.1) eqn:Hcmp; [|done..].
  by apply String.compare_eq_iff in Hcmp.
Qed.

Lemma tuple_ltb_false_keys (x y : string * nat) :
  x.1 ≠ y.1 → tuple_ltb x y = false → str_lt y.1 x.1.
Proof.
  unfold tuple_ltb, str_lt. intros Hne.
  rewrite (String.compare_antisym y.1 x.1).
  destruct (String.compare x.1 y.1) eqn:Hcmp; [|done..].
  by apply String.compare_eq_iff in Hcmp.
Qed.

Lemma insert_sorted_Permutation x l : insert_sorted x l ≡ₚ x :: l.
Proof.
  induction l as [|y ys IH]; [done|]. simpl.
  destruct (tuple_ltb y x); [|done]. rewrite IH. apply Permutation_swap.
Qed.

Lemma sorted_Permutation l : sorted l ≡ₚ l.
Proof.
  induction l as [|x l IH]; [done|]. simpl.
  by rewrite insert_sorted_Permutation, IH.
Qed.

Lemma insert_sorted_keys x l :
  x.1 ∉ l.*1 →
  StronglySorted key_lt l → StronglySorted key_lt (insert_sorted x l).
Proof.
  induction l as [|y ys IH]; intros Hx Hl; simpl.
  { repeat constructor. }
  apply not_elem_of_cons in Hx as [Hxy Hx].
  apply StronglySorted_inv in Hl as [Hys Hy].
  destruct (tuple_ltb y x) eqn:Hyx.
  - constructor; [by apply IH|].
    rewrite insert_sorted_Permutation. constructor; [|done].
    by apply tuple_ltb_true_keys.
  - assert (key_lt x y) as Hlt by by apply tuple_ltb_false_keys.
    constructor; [by constructor|]. constructor; [done|].
    eapply Forall_impl; [exact Hy|]. intros z Hz. unfold key_lt in *.
    by etrans.
Qed.

Lemma sorted_keys l : NoDup l.*1 → StronglySorted key_lt (sorted l).
Proof.
  induction l as [|x l IH]; intros Hnd; simpl; [constructor|].
  apply NoDup_cons in Hnd as [Hx Hnd].
  apply insert_sorted_keys; [|by apply IH].
  by rewrite sorted_Permutation.
Qed.

Lemma StronglySorted_keys l :
  StronglySorted key_lt l → StronglySorted str_lt l.*1.
Proof.
  induction 1 as [|x l _ IH Hx]; simpl; constructor; [done|].
  by apply Forall_fmap.
Qed.

Lemma StronglySorted_str_lt_NoDup l : StronglySorted str_lt l → NoDup l.
Proof.
  induction 1 as [|x l _ IH Hx]; constructor; [|done].
  intros Hin. rewrite Forall_forall in Hx.
  by apply (irreflexivity str_lt x), Hx.
Qed.

(** The categories of [sorted(categories.items())] ascend strictly. *)
Lemma sorted_items_ascending (categories : gmap string nat) :
  StronglySorted str_lt (sorted (map_to_list categories)).*1.
Proof. apply StronglySorted_keys, sorted_keys, NoDup_fst_map_to_list. Qed.

Lemma sorted_items_keys (categories : gmap string nat) c :
  c ∈ (sorted (map_to_list categories)).*1 ↔ c ∈ dom categories.
Proof.
  rewrite sorted_Permutation, elem_of_dom, list_elem_of_fmap. split.
  - intros ([c' n] & -> & Hin%elem_of_map_to_list). by exists n.
  - intros [n Hn]. exists (c, n). by rewrite elem_of_map_to_list.
Qed.

(** ** What the report prints *)

Lemma counted_categories_app out1 out2 :
  counted_categories (out1 ++ out2)
  = counted_categories out1 ++ counted_categories out2.
Proof. apply omap_app. Qed.

Lemma sampled_ids_app out1 out2 :
  sampled_ids (out1 ++ out2) = sampled_ids out1 ++ sampled_ids out2.
Proof. apply omap_app. Qed.

Lemma print_sample_line_Some (kv : string * ItemRecord) name :
  kv.2 !! "name" = Some name →
  print_sample_line kv = ([SampleLine kv.1 name], Ok tt).
Proof.
  intros Hname. unfold print_sample_line.
  by rewrite (getitem_Some _ _ _ Hname), bind_lift_Ok.
Qed.

Lemma print_sample_line_None (kv : string * ItemRecord) :
  kv.2 !! "name" = None →
  print_sample_line kv = ([], Raise (KeyError "name")).
Proof.
  intros Hname. unfold print_sample_line.
  by rewrite (getitem_None _ _ Hname).
Qed.

Lemma for_each_cons {A} (x : A) xs body :
  for_each (x :: xs) body = body x ≫= λ _, for_each xs body.
Proof. done. Qed.

Lemma sample_lines_counted sample :
  counted_categories (for_each sample print_sample_line).1 = [].
Proof.
  induction sample as [|kv rest IH]; [done|].
  rewrite for_each_cons, bind_out, counted_categories_app.
  destruct (kv.2 !! "name") as [name|] eqn:Hname.
  - by rewrite (print_sample_line_Some _ _ Hname).
  - by rewrite (print_sample_line_None _ Hname).
Qed.

Lemma sample_lines_ids sample :
  sampled_ids (for_each sample print_sample_line).1 `prefix_of` sample.*1.
Proof.
  induction sample as [|kv rest IH]; [done|].
  rewrite for_each_cons, bind_out, sampled_ids_app.
  destruct (kv.2 !! "name") as [name|] eqn:Hname.
  - rewrite (print_sample_line_Some _ _ Hname). by apply prefix_cons.
  - rewrite (print_sample_line_None _ Hname). apply prefix_nil.
Qed.

Lemma sample_lines_complete sample :
  Forall (λ kv, is_Some (kv.2 !! "name")) sample →
  (for_each sample print_sample_line).2 = Ok tt.
Proof.
  induction 1 as [|kv rest [name Hname] _ IH]; [done|].
  by rewrite for_each_cons, bind_res, (print_sample_line_Some _ _ Hname).
Qed.

Lemma count_lines_out l :
  for_each l print_count_line = ((λ cc, CountLine cc.1 cc.2) <$> l, Ok tt).
Proof.
  induction l as [|cc rest IH]; [done|].
  rewrite for_each_cons.
  change (print_count_line cc) with (print (CountLine cc.1 cc.2)).
  by rewrite bind_print, IH.
Qed.

Lemma count_lines_counted l :
  counted_categories ((λ cc : string * nat, CountLine cc.1 cc.2) <$> l) = l.*1.
Proof.
  induction l as [|cc rest IH]; [done|].
  rewrite !fmap_cons, <-IH. done.
Qed.

Lemma count_lines_ids l :
  sampled_ids ((λ cc : string * nat, CountLine cc.1 cc.2) <$> l) = [].
Proof. by induction l. Qed.

Lemma sample_section_out banner data category :
  (sample_section banner (sampleByCategory data category 10)).1
  = Banner banner ::
    match sampleByCategory data category 10 with
    | Ok sample => (for_each sample print_sample_line).1
    | Raise _ => []
    end.
Proof.
  unfold sample_section. rewrite bind_print. cbn [fst].
  by destruct (sampleByCategory data category 10);
    rewrite ?bind_lift_Ok, ?bind_lift_Raise.
Qed.

Lemma sample_section_res banner data category :
  (sample_section banner (sampleByCategory data category 10)).2
  = match sampleByCategory data category 10 with
    | Ok sample => (for_each sample print_sample_line).2
    | Raise e => Raise e
    end.
Proof.
  unfold sample_section. rewrite bind_print. cbn [snd].
  by destruct (sampleByCategory data category 10);
    rewrite ?bind_lift_Ok, ?bind_lift_Raise.
Qed.

Lemma summary_section_out data :
  summary_section data
  = match countByCategory data with
    | Ok categories =>
        (Banner summary_banner ::
           ((λ cc, CountLine cc.1 cc.2) <$> sorted (map_to_list categories)),
         Ok tt)
    | Raise e => ([], Raise e)
    end.
Proof.
  unfold summary_section. destruct (countByCategory data) as [m|e]; [|done].
  by rewrite bind_lift_Ok, bind_print, count_lines_out.
Qed.

Lemma sample_section_counted banner data category :
  counted_categories
    (sample_section banner (sampleByCategory data category 10)).1 = [].
Proof.
  rewrite sample_section_out.
  destruct (sampleByCategory data category 10) as [sample|e]; [|done].
  apply sample_lines_counted.
Qed.

Lemma summary_section_counted data :
  counted_categories (summary_section data).1
  = match countByCategory data with
    | Ok categories => (sorted (map_to_list categories)).*1
    | Raise _ => []
    end.
Proof.
  rewrite summary_section_out.
  destruct (countByCategory data) as [m|e]; [|done].
  apply count_lines_counted.
Qed.

(** One step of [report]: the section [m] prints no count line. *)
Lemma section_then_counted (m rest : py unit) :
  counted_categories m.1 = [] →
  counted_categories (m ≫= λ _, rest).1 = []
  ∨ counted_categories (m ≫= λ _, rest).1 = counted_categories rest.1.
Proof.
  intros Hm. rewrite bind_out, counted_categories_app, Hm.
  destruct m.2; [by right|by left].
Qed.

Lemma report_counted data :
  counted_categories (report data).1 = []
  ∨ ∃ categories,
      countByCategory data = Ok categories
      ∧ counted_categories (report data).1
        = (sorted (map_to_list categories)).*1.
Proof.
  unfold report, weapons, armor, food, resources.
  do 4 lazymatch goal with
  | |- counted_categories (?m ≫= λ _, ?rest).1 = [] ∨ _ =>
      destruct (section_then_counted m rest (sample_section_counted _ _ _))
        as [->| ->]; [by left|]
  end.
  rewrite summary_section_counted.
  destruct (countByCategory data) as [m|e]; [|by left].
  right. by exists m.
Qed.

(** C4: the categories of the count lines of the report ascend strictly in
    string order, and none is listed twice. *)
Theorem report_counts_ascending data :
  StronglySorted str_lt (counted_categories (report data).1)
  ∧ NoDup (counted_categories (report data).1).
Proof.
  assert (StronglySorted str_lt (counted_categories (report data).1)) as Hs.
  { destruct (report_counted data) as [->|(m & _ & ->)]; [constructor|].
    apply sorted_items_ascending. }
  split; [done|]. by apply StronglySorted_str_lt_NoDup.
Qed.

(** ** A complete catalog *)

Lemma sample_section_complete banner data category :
  expected_shape (JSONDocument data) →
  (sample_section banner (sampleByCategory data category 10)).2 = Ok tt.
Proof.
  simpl. intros Hshape. rewrite sample_section_res, sampleByCategory_take.
  - apply sample_lines_complete, Forall_forall. intros kv Hkv.
    assert (kv ∈ data) as Hin.
    { eapply elem_of_sublist; [exact Hkv|].
      etrans; [apply sublist_take|]. apply sublist_filter. }
    rewrite Forall_forall in Hshape. by apply Hshape.
  - eapply Forall_impl; [exact Hshape|]. by intros kv [_ ?].
Qed.

Lemma section_then_complete (m rest : py unit) :
  counted_categories m.1 = [] → m.2 = Ok tt →
  counted_categories (m ≫= λ _, rest).1 = counted_categories rest.1
  ∧ (m ≫= λ _, rest).2 = rest.2.
Proof.
  intros Hout Hres.
  by rewrite bind_out, bind_res, counted_categories_app, Hout, Hres.
Qed.

(** When every record has a name and a category the program runs to its
    end, and the count lines list exactly the categories of the catalog. *)
Lemma report_complete data :
  expected_shape (JSONDocument data) →
  (report data).2 = Ok tt
  ∧ ∀ c, c ∈ counted_categories (report data).1 ↔ c ∈ categories_of data.
Proof.
  intros Hshape. unfold report, weapons, armor, food, resources.
  do 4 lazymatch goal with
  | |- (?m ≫= λ _, ?rest).2 = _ ∧ _ =>
      destruct (section_then_complete m rest (sample_section_counted _ _ _)
                  (sample_section_complete _ _ _ Hshape)) as [-> ->]
  end.
  rewrite summary_section_out.
  destruct (countByCategory_lookup data) as (m & -> & Hm).
  { simpl in Hshape. eapply Forall_impl; [exact Hshape|]. by intros kv [_ ?]. }
  split; [done|]. intros c. cbn [fst].
  change (counted_categories (?e :: ?l)) with (counted_categories l).
  rewrite count_lines_counted, sorted_items_keys, elem_of_dom, Hm.
  rewrite <-occurrences_pos.
  destruct (occurrences c data.*2); split; intros Hc; by try lia.
Qed.

(** ** Fields other than name and category *)

Lemma comprehension_agree data1 data2 category :
  Forall2 agree data1 data2 →
  result_rel (Forall2 agree)
    (comprehension data1 category) (comprehension data2 category).
Proof.
  induction 1 as [|[k1 v1] [k2 v2] rest1 rest2 (Hk & Hn & Hc) _ IH];
    [by constructor|].
  simpl in Hk, Hn, Hc. subst k2. cbn [comprehension]. unfold getitem.
  rewrite <-Hc. destruct (v1 !! "category") as [c|] eqn:Hc1; [|done].
  res_simpl.
  destruct (comprehension rest1 category) as [l1|e1],
    (comprehension rest2 category) as [l2|e2]; try done.
  simpl in *. destruct (String.eqb c category); [|done].
  constructor; [|done]. repeat split; simpl; congruence.
Qed.

Lemma sampleByCategory_agree data1 data2 category limit :
  Forall2 agree data1 data2 →
  result_rel (Forall2 agree)
    (sampleByCategory data1 category limit)
    (sampleByCategory data2 category limit).
Proof.
  intros Hagree. unfold sampleByCategory.
  pose proof (comprehension_agree _ _ category Hagree) as Hc.
  destruct (comprehension data1 category) as [l1|e1],
    (comprehension data2 category) as [l2|e2]; try done.
  by apply Forall2_take.
Qed.

Lemma sample_lines_agree sample1 sample2 :
  Forall2 agree sample1 sample2 →
  for_each sample1 print_sample_line = for_each sample2 print_sample_line.
Proof.
  induction 1 as [|kv1 kv2 rest1 rest2 (Hk & Hn & _) _ IH]; [done|].
  rewrite !for_each_cons, IH. f_equal.
  unfold print_sample_line, getitem. by rewrite Hk, Hn.
Qed.

Lemma sample_section_agree banner data1 data2 category :
  Forall2 agree data1 data2 →
  sample_section banner (sampleByCategory data1 category 10)
  = sample_section banner (sampleByCategory data2 category 10).
Proof.
  intros Hagree. unfold sample_section. rewrite !bind_print. cbn beta.
  pose proof (sampleByCategory_agree _ _ category 10 Hagree) as Hs.
  destruct (sampleByCategory data1 category 10) as [l1|e1],
    (sampleByCategory data2 category 10) as [l2|e2]; try done.
  - by rewrite !bind_lift_Ok, (sample_lines_agree l1 l2).
  - simpl in Hs. by subst.
Qed.

Lemma count_loop_agree values1 values2 :
  Forall2 (λ v1 v2 : ItemRecord, v1 !! "category" = v2 !! "category")
    values1 values2 →
  ∀ acc, count_loop values1 acc = count_loop values2 acc.
Proof.
  induction 1 as [|v1 v2 rest1 rest2 Hc _ IH]; intros acc; [done|].
  cbn [count_loop]. unfold getitem. rewrite <-Hc.
  destruct (v1 !! "category"); [|done]. res_simpl. apply IH.
Qed.

Lemma countByCategory_agree data1 data2 :
  Forall2 agree data1 data2 → countByCategory data1 = countByCategory data2.
Proof.
  intros Hagree. unfold countByCategory. apply count_loop_agree.
  apply Forall2_fmap. eapply Forall2_impl; [exact Hagree|].
  by intros kv1 kv2 (_ & _ & ?).
Qed.

(** C8: two catalogs with the same ids in the same order, whose records
    agree on [name] and [category], give the same samples (same ids, names
    and categories), the same counts and the same report, whatever their
    other fields hold. *)
Theorem report_ignores_other_fields data1 data2 :
  Forall2 agree data1 data2 →
  (∀ category limit,
     result_rel (Forall2 agree)
       (sampleByCategory data1 category limit)
       (sampleByCategory data2 category limit))
  ∧ countByCategory data1 = countByCategory data2
  ∧ report data1 = report data2
  ∧ stdout_text (report data1).1 = stdout_text (report data2).1.
Proof.
  intros Hagree.
  split; [intros; by apply sampleByCategory_agree|].
  split; [by apply countByCategory_agree|].
  assert (report data1 = report data2) as ->; [|done].
  unfold report, weapons, armor, food, resources, summary_section.
  by rewrite !(sample_section_agree _ data1 data2),
    (countByCategory_agree data1 data2).
Qed.

Lemma report_ignores_other_fields_witness :
  (∀ category limit,
     result_rel (Forall2 agree)
       (sampleByCategory example_catalog category limit)
       (sampleByCategory example_catalog_extra category limit))
  ∧ countByCategory example_catalog = countByCategory example_catalog_extra
  ∧ report example_catalog = report example_catalog_extra
  ∧ stdout_text (report example_catalog).1
    = stdout_text (report example_catalog_extra).1.
Proof.
  apply (report_ignores_other_fields example_catalog example_catalog_extra).
  repeat constructor.
Defined.

(** ** Samples of different categories *)

Lemma keys_unique_record (data : ItemCatalog) k v1 v2 :
  dict_keys_unique data → (k, v1) ∈ data → (k, v2) ∈ data → v1 = v2.
Proof.
  unfold dict_keys_unique.
  induction data as [|[k' v'] rest IH]; intros Hnd H1 H2.
  { by apply not_elem_of_nil in H1. }
  rewrite fmap_cons in Hnd. apply NoDup_cons in Hnd as [Hk' Hnd].
  apply elem_of_cons in H1 as [H1|H1], H2 as [H2|H2].
  - congruence.
  - injection H1 as -> ->. destruct Hk'.
    apply list_elem_of_fmap. by exists (k', v2).
  - injection H2 as -> ->. destruct Hk'.
    apply list_elem_of_fmap. by exists (k', v1).
  - by apply IH.
Qed.

Lemma matches_keys_NoDup data category :
  dict_keys_unique data → NoDup (matches data category).*1.
Proof.
  intros Hnd. eapply sublist_NoDup; [exact Hnd|].
  apply fmap_sublist, sublist_filter.
Qed.

Lemma matches_keys_disjoint data c1 c2 k :
  dict_keys_unique data → c1 ≠ c2 →
  k ∈ (matches data c1).*1 → k ∉ (matches data c2).*1.
Proof.
  intros Hnd Hne ([k1 v1] & -> & H1)%list_elem_of_fmap
    ([k2 v2] & Hk & H2)%list_elem_of_fmap.
  simpl in Hk. subst k2.
  apply list_elem_of_filter in H1 as [Hc1 H1], H2 as [Hc2 H2].
  pose proof (keys_unique_record _ _ _ _ Hnd H1 H2) as ->.
  unfold category_is in *. simpl in *. congruence.
Qed.

Lemma matching_ids_NoDup data cs :
  dict_keys_unique data → NoDup cs → NoDup (matching_ids data cs).
Proof.
  intros Hnd. unfold matching_ids.
  induction 1 as [|c cs Hc _ IH]; [constructor|].
  change (NoDup ((matches data c).*1 ++ (cs ≫= λ c, (matches data c).*1))).
  apply NoDup_app. split; [by apply matches_keys_NoDup|]. split; [|done].
  intros k Hk (c' & Hk' & Hc')%list_elem_of_bind.
  eapply (matches_keys_disjoint data c c'); [done| |done..].
  by intros ->.
Qed.

Lemma sample_section_ids banner data category :
  Forall has_category data →
  sampled_ids (sample_section banner (sampleByCategory data category 10)).1
  `sublist_of` (matches data category).*1.
Proof.
  intros Hwf. rewrite sample_section_out, sampleByCategory_take by done.
  change (sampled_ids (Banner banner :: ?l)) with (sampled_ids l).
  destruct (sample_lines_ids (take 10 (matches data category))) as [tl Htl].
  etrans; [|apply fmap_sublist, sublist_take]. rewrite Htl.
  by apply sublist_inserts_r.
Qed.

Lemma section_then_ids (m rest : py unit) ids1 ids2 :
  sampled_ids m.1 `sublist_of` ids1 →
  sampled_ids rest.1 `sublist_of` ids2 →
  sampled_ids (m ≫= λ _, rest).1 `sublist_of` ids1 ++ ids2.
Proof.
  intros H1 H2. rewrite bind_out, sampled_ids_app.
  apply sublist_app; [done|]. destruct m.2; [done|apply sublist_nil_l].
Qed.

Lemma report_sampled_ids data :
  Forall has_category data →
  sampled_ids (report data).1
  `sublist_of` matching_ids data ["weapons"; "armor"; "food"; "resources"].
Proof.
  intros Hwf. unfold report, weapons, armor, food, resources.
  repeat (apply section_then_ids; [by apply sample_section_ids|]).
  rewrite summary_section_out.
  destruct (countByCategory data); [|done].
  cbn [fst]. change (sampled_ids (Banner ?b :: ?l)) with (sampled_ids l).
  by rewrite count_lines_ids.
Qed.

(** C10: in a catalog (a dict: its keys are pairwise distinct) in which
    every record has a [category] field, the samples of two different
    categories have no id in common; and no id is printed twice in the
    sample lines of the report. *)
Theorem samples_disjoint data c1 c2 limit1 limit2 :
  dict_keys_unique data →
  Forall has_category data →
  c1 ≠ c2 →
  ∃ sample1 sample2,
    sampleByCategory data c1 limit1 = Ok sample1
    ∧ sampleByCategory data c2 limit2 = Ok sample2
    ∧ (∀ k, k ∈ sample1.*1 → k ∉ sample2.*1)
    ∧ NoDup (sampled_ids (report data).1).
Proof.
  intros Hnd Hwf Hne. do 2 eexists.
  do 2 (split; [by apply sampleByCategory_take|]). split.
  - intros k Hk1 Hk2.
    apply (matches_keys_disjoint data c1 c2 k); [done..| |].
    + eapply elem_of_sublist; [exact Hk1|]. apply fmap_sublist, sublist_take.
    + eapply elem_of_sublist; [exact Hk2|]. apply fmap_sublist, sublist_take.
  - eapply sublist_NoDup; [|by apply report_sampled_ids].
    apply matching_ids_NoDup; [done|].
    compute_done.
Qed.

Lemma samples_disjoint_witness :
  ∃ sample1 sample2,
    sampleByCategory example_catalog "weapons" 10 = Ok sample1
    ∧ sampleByCategory example_catalog "armor" 10 = Ok sample2
    ∧ (∀ k, k ∈ sample1.*1 → k ∉ sample2.*1)
    ∧ NoDup (sampled_ids (report example_catalog).1).
Proof.
  apply (samples_disjoint example_catalog "weapons" "armor" 10 10).
  - unfold dict_keys_unique. apply (bool_decide_unpack _). by vm_compute.
  - repeat constructor; by eexists.
  - discriminate.
Defined.

(** * Further properties of the script *)

(** ** Laws of the program monad *)

Lemma bind_Ok {A B} out (a : A) (k : A → py B) :
  (out, Ok a) ≫= k = (out ++ (k a).1, (k a).2).
Proof. unfold mbind, py_bind, bind. by destruct (k a). Qed.

Lemma bind_Raise {A B} out e (k : A → py B) :
  (out, Raise e) ≫= k = (out, Raise e).
Proof. done. Qed.

Lemma bind_assoc {A B C} (m : py A) (f : A → py B) (g : B → py C) :
  (m ≫= f) ≫= g = m ≫= λ a, f a ≫= g.
Proof.
  destruct m as [out [a|e]]; [|done]. rewrite !bind_Ok.
  destruct (f a) as [out' [b|e']]; cbn [fst snd].
  - rewrite !bind_Ok. cbn [fst snd]. by rewrite app_assoc.
  - by rewrite !bind_Raise.
Qed.

Lemma then_assoc {C} (m n : py unit) (k : unit → py C) :
  (m ≫= λ _, n) ≫= k = m ≫= λ _, n ≫= k.
Proof. apply bind_assoc. Qed.

Lemma then_congr {B} (m : py unit) (n n' : py B) :
  n = n' → (m ≫= λ _, n) = (m ≫= λ _, n').
Proof. by intros ->. Qed.

Lemma bind_ret_l {A B} (a : A) (k : A → py B) : mret a ≫= k = k a.
Proof. apply bind_lift_Ok. Qed.

(** The report is the loop over the four sections, then the summary. *)
Lemma report_sections data :
  report data
  = for_each sections (section_of data) ≫= λ _, summary_section data.
Proof.
  unfold report, weapons, armor, food, resources, sections.
  rewrite !for_each_cons. unfold section_of at 1 2 3 4. cbn [fst snd].
  do 4 (rewrite then_assoc; apply then_congr).
  cbn [for_each]. by rewrite bind_ret_l.
Qed.

(** ** The sample loop *)

Lemma sample_lines_cons_Some kv rest name :
  kv.2 !! "name" = Some name →
  sample_lines (kv :: rest) = SampleLine kv.1 name :: sample_lines rest.
Proof. intros Hname. unfold sample_lines. simpl. by rewrite Hname. Qed.

Lemma sample_loop_named sample :
  Forall has_name sample →
  for_each sample print_sample_line = (sample_lines sample, Ok tt).
Proof.
  induction 1 as [|kv rest [name Hname] _ IH]; [done|].
  rewrite for_each_cons, (print_sample_line_Some _ _ Hname), bind_Ok, IH.
  by rewrite (sample_lines_cons_Some _ _ _ Hname).
Qed.

Lemma sample_loop_unnamed pre kv post :
  Forall has_name pre → kv.2 !! "name" = None →
  for_each (pre ++ kv :: post) print_sample_line
  = (sample_lines pre, Raise (KeyError "name")).
Proof.
  intros Hpre Hkv. induction Hpre as [|kv' rest [name Hname] _ IH].
  - by rewrite app_nil_l, for_each_cons, (print_sample_line_None _ Hkv).
  - rewrite <-app_comm_cons, for_each_cons.
    rewrite (print_sample_line_Some _ _ Hname), bind_Ok, IH.
    by rewrite (sample_lines_cons_Some _ _ _ Hname).
Qed.

(** The loop ends normally or with the [KeyError] of a missing name. *)
Lemma sample_loop_res sample :
  (for_each sample print_sample_line).2
  = if decide (Forall has_name sample) then Ok tt
    else Raise (KeyError "name").
Proof.
  induction sample as [|kv rest IH]; [done|].
  rewrite for_each_cons, bind_res.
  destruct (kv.2 !! "name") as [name|] eqn:Hname.
  - rewrite (print_sample_line_Some _ _ Hname). cbn [snd]. rewrite IH.
    destruct (decide (Forall has_name rest)) as [Hrest|Hrest].
    + rewrite decide_True; [done|]. constructor; [by exists name|done].
    + rewrite decide_False; [done|]. by intros [_ ?]%Forall_cons.
  - rewrite (print_sample_line_None _ Hname). cbn [snd].
    rewrite decide_False; [done|]. intros [[x Hx] _]%Forall_cons.
    unfold has_name in *. congruence.
Qed.

Lemma sample_section_Ok banner sample :
  sample_section banner (Ok sample)
  = (Banner banner :: (for_each sample print_sample_line).1,
     (for_each sample print_sample_line).2).
Proof. unfold sample_section. by rewrite bind_print, bind_lift_Ok. Qed.

Lemma sample_section_Raise banner e :
  sample_section banner (Raise e) = ([Banner banner], Raise e).
Proof. done. Qed.

Lemma report_weapons_Raise data e :
  (sample_section weapons_banner (weapons data)).2 = Raise e →
  report data = ((sample_section weapons_banner (weapons data)).1, Raise e).
Proof.
  intros Hres. unfold report.
  destruct (sample_section weapons_banner (weapons data)) as [out r].
  simpl in Hres. by subst r.
Qed.

(** X1: a sample section whose sample holds a record without [name] prints
    its banner and the lines of the records before that record, then stops
    with [KeyError('name')]; when this happens in the weapons section it is
    the whole output of the program. *)
Theorem sample_section_missing_name banner pre kv post :
  Forall has_name pre →
  kv.2 !! "name" = None →
  sample_section banner (Ok (pre ++ kv :: post))
  = (Banner banner :: sample_lines pre, Raise (KeyError "name"))
  ∧ length (sample_lines pre) = length pre
  ∧ ∀ data, weapons data = Ok (pre ++ kv :: post) →
      report data
      = (Banner weapons_banner :: sample_lines pre, Raise (KeyError "name")).
Proof.
  intros Hpre Hkv.
  assert (∀ b, sample_section b (Ok (pre ++ kv :: post))
               = (Banner b :: sample_lines pre, Raise (KeyError "name")))
    as Hsect.
  { intros b. by rewrite sample_section_Ok, sample_loop_unnamed. }
  split; [done|]. split.
  - clear Hsect. induction Hpre as [|kv' rest [name Hname] _ IH]; [done|].
    rewrite (sample_lines_cons_Some _ _ _ Hname). simpl. by rewrite IH.
  - intros data Hw. rewrite (report_weapons_Raise data (KeyError "name")).
    + by rewrite Hw, Hsect.
    + by rewrite Hw, Hsect.
Qed.

Lemma sample_section_missing_name_witness :
  let pre := [("1", {["name" := "Sword"; "category" := "weapons"]})] in
  let kv : string * ItemRecord := ("2", {["category" := "weapons"]}) in
  sample_section weapons_banner (Ok (pre ++ kv :: []))
  = (Banner weapons_banner :: sample_lines pre, Raise (KeyError "name"))
  ∧ length (sample_lines pre) = length pre
  ∧ ∀ data, weapons data = Ok (pre ++ kv :: []) →
      report data
      = (Banner weapons_banner :: sample_lines pre, Raise (KeyError "name")).
Proof.
  apply (sample_section_missing_name weapons_banner
           [("1", {["name" := "Sword"; "category" := "weapons"]})]
           ("2", {["category" := "weapons"]}) []).
  - repeat constructor. by eexists.
  - reflexivity.
Defined.

(** ** When the program completes *)

Lemma missing_category_cases data :
  Forall has_category data ∨ Exists (λ kv, ¬ has_category kv) data.
Proof.
  destruct (decide (Forall has_category data)) as [?|Hn]; [by left|right].
  exact (not_Forall_Exists has_category data Hn).
Qed.

Lemma missing_category_excl data :
  Forall has_category data → ¬ Exists (λ kv, ¬ has_category kv) data.
Proof. intros Hwf Hex. by eapply (Exists_not_Forall has_category). Qed.

Lemma report_missing_category data :
  Exists (λ kv, ¬ has_category kv) data →
  report data = ([Banner weapons_banner], Raise (KeyError "category")).
Proof.
  intros Hex.
  assert (weapons data = Raise (KeyError "category")) as Hw.
  { unfold weapons, sampleByCategory.
    by rewrite (comprehension_KeyError _ _ Hex). }
  rewrite (report_weapons_Raise data (KeyError "category")); by rewrite Hw.
Qed.

Lemma section_of_sampled data bc :
  Forall has_category data →
  section_of data bc
  = (Banner bc.1 :: (for_each (sampled data bc.2) print_sample_line).1,
     (for_each (sampled data bc.2) print_sample_line).2).
Proof.
  intros Hwf. unfold section_of.
  by rewrite sampleByCategory_take, sample_section_Ok.
Qed.

Lemma sections_complete data cs :
  Forall has_category data →
  Forall (λ bc : string * string, Forall has_name (sampled data bc.2)) cs →
  for_each cs (section_of data) = (cs ≫= section_lines data, Ok tt).
Proof.
  intros Hwf. induction 1 as [|bc cs Hbc _ IH]; [done|].
  rewrite for_each_cons, section_of_sampled, sample_loop_named by done.
  cbn [fst snd]. by rewrite bind_Ok, IH.
Qed.

Lemma sections_res data cs :
  Forall has_category data →
  (for_each cs (section_of data)).2
  = if decide (Forall (λ bc : string * string,
                         Forall has_name (sampled data bc.2)) cs)
    then Ok tt else Raise (KeyError "name").
Proof.
  intros Hwf. induction cs as [|bc cs IH]; [done|].
  rewrite for_each_cons, bind_res, section_of_sampled by done. cbn [snd].
  rewrite sample_loop_res, IH.
  destruct (decide (Forall has_name (sampled data bc.2))) as [Hbc|Hbc].
  - destruct (decide (Forall _ cs)) as [Hcs|Hcs].
    + by rewrite decide_True by by constructor.
    + rewrite decide_False; [done|]. by intros [_ ?]%Forall_cons.
  - rewrite decide_False; [done|]. by intros [? _]%Forall_cons.
Qed.

Lemma summary_section_res data :
  Forall has_category data → (summary_section data).2 = Ok tt.
Proof.
  intros Hwf. rewrite summary_section_out.
  by destruct (countByCategory_lookup data Hwf) as (m & -> & _).
Qed.

Lemma report_res data :
  Forall has_category data →
  (report data).2
  = if decide (sampled_named data) then Ok tt else Raise (KeyError "name").
Proof.
  intros Hwf. rewrite report_sections, bind_res, sections_res by done.
  unfold sampled_named. case_decide; [|done].
  by apply summary_section_res.
Qed.

Lemma report_Ok_wf data :
  (report data).2 = Ok tt → Forall has_category data.
Proof.
  intros Hres. destruct (missing_category_cases data) as [Hwf|Hex]; [done|].
  by rewrite (report_missing_category data Hex) in Hres.
Qed.

(** X2: the program ends normally exactly when every record has a
    [category] and every record a sample section goes through (the first
    ten of each of the four categories) has a [name]; otherwise it stops
    with [KeyError('category')], exactly when some record has no category,
    or else with [KeyError('name')]. *)
Theorem report_outcome data :
  ((report data).2 = Ok tt ↔ Forall has_category data ∧ sampled_named data)
  ∧ ((report data).2 = Raise (KeyError "category")
     ↔ Exists (λ kv, ¬ has_category kv) data)
  ∧ ((report data).2 = Raise (KeyError "name")
     ↔ Forall has_category data ∧ ¬ sampled_named data)
  ∧ (exit_status (report data) = 0 ↔ (report data).2 = Ok tt).
Proof.
  assert (exit_status (report data) = 0 ↔ (report data).2 = Ok tt) as Hexit.
  { unfold exit_status. destruct (report data).2 as [[]|e]; [done|].
    split; intros; discriminate. }
  destruct (missing_category_cases data) as [Hwf|Hex].
  - pose proof (missing_category_excl data Hwf) as Hnex.
    rewrite (report_res data Hwf) in Hexit |- *.
    destruct (decide (sampled_named data));
      (split_and!; [..|exact Hexit]); split; intros; by try tauto.
  - assert (¬ Forall has_category data) as Hnwf.
    { intros Hwf. by apply (missing_category_excl data Hwf). }
    rewrite (report_missing_category data Hex) in Hexit |- *. cbn [snd].
    (split_and!; [..|exact Hexit]); split; intros; by try tauto.
Qed.

(** X3: when the file holds a catalog in which every record has a
    [category] and every record a section goes through has a [name], the
    program prints, for each of the four categories in order, the banner and
    one line per sampled record, then the summary banner and one line per
    category of the tally in sorted order, and exits with status 0. *)
Theorem main_complete fs data :
  fs sprite_lookup_path = Some (JSONDocument data) →
  Forall has_category data →
  sampled_named data →
  ∃ categories,
    countByCategory data = Ok categories
    ∧ main fs
      = ((sections ≫= section_lines data)
           ++ Banner summary_banner :: tally_lines categories, Ok tt)
    ∧ exit_status (main fs) = 0.
Proof.
  intros Hfile Hwf Hnamed.
  destruct (countByCategory_lookup data Hwf) as (m & Hm & _).
  exists m. split; [done|].
  assert (main fs
          = ((sections ≫= section_lines data)
               ++ Banner summary_banner :: tally_lines m, Ok tt)) as ->;
    [|done].
  unfold main. rewrite (run_loaded _ _ _ Hfile), report_sections.
  rewrite (sections_complete data sections Hwf Hnamed), bind_Ok.
  by rewrite summary_section_out, Hm.
Qed.

Lemma main_complete_witness :
  let fs := single_file sprite_lookup_path (JSONDocument example_catalog) in
  ∃ categories,
    countByCategory example_catalog = Ok categories
    ∧ main fs
      = ((sections ≫= section_lines example_catalog)
           ++ Banner summary_banner :: tally_lines categories, Ok tt)
    ∧ exit_status (main fs) = 0.
Proof.
  apply (main_complete
           (single_file sprite_lookup_path (JSONDocument example_catalog))
           example_catalog).
  - reflexivity.
  - repeat constructor; by eexists.
  - repeat constructor; by eexists.
Defined.

(** ** How much is sampled *)

Lemma sampled_ids_banner text out :
  sampled_ids (Banner text :: out) = sampled_ids out.
Proof. done. Qed.

Lemma sampleByCategory_length data category limit sample :
  sampleByCategory data category limit = Ok sample → length sample ≤ limit.
Proof.
  unfold sampleByCategory.
  destruct (comprehension data category) as [l|e]; [|done].
  intros [= <-]. rewrite length_take. lia.
Qed.

Lemma section_of_ids_bound data bc :
  length (sampled_ids (section_of data bc).1) ≤ 10.
Proof.
  unfold section_of.
  destruct (sampleByCategory data bc.2 10) as [sample|e] eqn:Hs.
  - rewrite sample_section_Ok. cbn [fst]. rewrite sampled_ids_banner.
    etrans; [apply prefix_length, sample_lines_ids|].
    rewrite length_fmap. by eapply sampleByCategory_length.
  - rewrite sample_section_Raise. simpl. lia.
Qed.

Lemma sections_ids_bound data cs :
  length (sampled_ids (for_each cs (section_of data)).1) ≤ 10 * length cs.
Proof.
  induction cs as [|bc cs IH]; [simpl; lia|].
  rewrite for_each_cons, bind_out, sampled_ids_app, length_app.
  pose proof (section_of_ids_bound data bc).
  destruct (section_of data bc).2; simpl in *; lia.
Qed.

Lemma summary_section_ids data : sampled_ids (summary_section data).1 = [].
Proof.
  rewrite summary_section_out.
  destruct (countByCategory data); [|done].
  cbn [fst]. by rewrite sampled_ids_banner, count_lines_ids.
Qed.

(** X4: whatever the catalog, a sample section prints at most ten sample
    lines, and the whole report at most forty. *)
Theorem report_sample_lines_bound data :
  (∀ banner category,
     length (sampled_ids
               (sample_section banner (sampleByCategory data category 10)).1)
     ≤ 10)
  ∧ length (sampled_ids (report data).1) ≤ 40.
Proof.
  split.
  - intros banner category.
    apply (section_of_ids_bound data (banner, category)).
  - rewrite report_sections, bind_out, sampled_ids_app, length_app.
    pose proof (sections_ids_bound data sections) as Hb.
    destruct (for_each sections (section_of data)).2.
    + rewrite summary_section_ids. simpl in *. lia.
    + simpl in *. lia.
Qed.

(** ** The count lines *)

Lemma counted_categories_count_lines out :
  counted_categories out = (count_lines out).*1.
Proof.
  induction out as [|[text|k name|c n] out IH]; [done|done|done|].
  change (c :: counted_categories out = c :: (count_lines out).*1).
  by rewrite IH.
Qed.

Lemma count_lines_app out1 out2 :
  count_lines (out1 ++ out2) = count_lines out1 ++ count_lines out2.
Proof. apply omap_app. Qed.

Lemma count_lines_nil out : counted_categories out = [] → count_lines out = [].
Proof.
  rewrite counted_categories_count_lines. apply fmap_nil_inv.
Qed.

Lemma count_lines_tally (categories : gmap string nat) :
  count_lines (tally_lines categories) = sorted (map_to_list categories).
Proof.
  unfold tally_lines. induction (sorted (map_to_list categories))
    as [|[c n] l IH]; [done|].
  rewrite fmap_cons.
  change (count_lines (CountLine (c, n).1 (c, n).2 :: ?o))
    with ((c, n) :: count_lines o).
  by f_equal.
Qed.

Lemma sections_counted data cs :
  counted_categories (for_each cs (section_of data)).1 = [].
Proof.
  induction cs as [|bc cs IH]; [done|].
  rewrite for_each_cons, bind_out, counted_categories_app.
  unfold section_of at 1. rewrite sample_section_counted.
  by destruct (section_of data bc).2.
Qed.

Lemma report_count_lines data :
  count_lines (report data).1
  = match (report data).2, countByCategory data with
    | Ok _, Ok categories => sorted (map_to_list categories)
    | _, _ => []
    end.
Proof.
  rewrite report_sections, bind_out, bind_res, count_lines_app.
  rewrite (count_lines_nil _ (sections_counted data sections)), app_nil_l.
  destruct (for_each sections (section_of data)).2 as [[]|e]; [|done].
  rewrite summary_section_out.
  destruct (countByCategory data) as [m|e]; [|done].
  cbn [fst snd]. apply (count_lines_tally m).
Qed.

Lemma count_loop_Ok_inv values :
  ∀ acc m, count_loop values acc = Ok m →
  Forall (λ v : ItemRecord, is_Some (v !! "category")) values.
Proof.
  induction values as [|v rest IH]; intros acc m Hm; [constructor|].
  cbn [count_loop] in Hm. unfold getitem in Hm.
  destruct (v !! "category") as [cat|] eqn:Hcat; [|done].
  constructor; [by exists cat|]. by eapply IH.
Qed.

Lemma countByCategory_Ok_inv data m :
  countByCategory data = Ok m → Forall has_category data.
Proof.
  intros Hm%count_loop_Ok_inv. rewrite Forall_fmap in Hm.
  eapply Forall_impl; [exact Hm|]. by intros kv.
Qed.

Lemma total_sum (categories : gmap string nat) :
  total categories = sum_list_with snd (map_to_list categories).
Proof.
  unfold total. rewrite map_fold_foldr.
  induction (map_to_list categories) as [|[c n] l IH]; [done|].
  simpl. by rewrite IH.
Qed.

(** X5: every count line of the report shows a category of the catalog
    with the number of its records, which is at least one; and when the
    program ends normally the count lines list every category of the
    catalog and their counts add up to the number of records. *)
Theorem report_count_lines_exact data :
  (∀ c n, (c, n) ∈ count_lines (report data).1 →
     c ∈ categories_of data ∧ n = length (matches data c) ∧ 0 < n)
  ∧ ((report data).2 = Ok tt →
     (∀ c, c ∈ categories_of data →
        (c, length (matches data c)) ∈ count_lines (report data).1)
     ∧ sum_list_with snd (count_lines (report data).1) = length data).
Proof.
  rewrite report_count_lines.
  destruct (report data).2 as [[]|e] eqn:Hres.
  2: { split; [|done]. by intros c n ?%not_elem_of_nil. }
  destruct (countByCategory data) as [m|e] eqn:Hm.
  2: { split; [by intros c n ?%not_elem_of_nil|]. intros _.
       apply report_Ok_wf in Hres.
       destruct (countByCategory_lookup data Hres) as (m' & Hm' & _).
       congruence. }
  pose proof (countByCategory_Ok_inv _ _ Hm) as Hwf.
  destruct (countByCategory_lookup data Hwf) as (m' & Hm' & Hlookup).
  assert (m' = m) as -> by congruence.
  assert (∀ c n, (c, n) ∈ sorted (map_to_list m) ↔ m !! c = Some n) as Hin.
  { intros c n. by rewrite sorted_Permutation, elem_of_map_to_list. }
  split; [|intros _; split].
  - intros c n Hcn%Hin. rewrite Hlookup in Hcn.
    rewrite <-occurrences_pos, <-occurrences_matches.
    destruct (occurrences c data.*2); [done|].
    injection Hcn as <-. repeat split; lia.
  - intros c Hc%occurrences_pos. apply Hin. rewrite Hlookup.
    rewrite <-occurrences_matches. destruct (occurrences c data.*2); [lia|done].
  - rewrite sorted_Permutation, <-total_sum.
    apply count_loop_total in Hm. by rewrite Hm, total_empty, length_fmap.
Qed.

(** ** The banners *)

Lemma banners_app out1 out2 :
  banners (out1 ++ out2) = banners out1 ++ banners out2.
Proof. apply omap_app. Qed.

Lemma banners_sample_loop sample :
  banners (for_each sample print_sample_line).1 = [].
Proof.
  induction sample as [|kv rest IH]; [done|].
  rewrite for_each_cons, bind_out, banners_app.
  destruct (kv.2 !! "name") as [name|] eqn:Hname.
  - by rewrite (print_sample_line_Some _ _ Hname).
  - by rewrite (print_sample_line_None _ Hname).
Qed.

Lemma banners_section data bc : banners (section_of data bc).1 = [bc.1].
Proof.
  unfold section_of. destruct (sampleByCategory data bc.2 10) as [sample|e].
  - rewrite sample_section_Ok. cbn [fst].
    change (bc.1 :: banners (for_each sample print_sample_line).1 = [bc.1]).
    by rewrite banners_sample_loop.
  - by rewrite sample_section_Raise.
Qed.

Lemma banners_sections data cs :
  banners (for_each cs (section_of data)).1 `prefix_of` cs.*1
  ∧ ((for_each cs (section_of data)).2 = Ok tt →
     banners (for_each cs (section_of data)).1 = cs.*1).
Proof.
  induction cs as [|bc cs [IHp IHe]]; [done|].
  rewrite for_each_cons, bind_out, bind_res, banners_app, banners_section.
  destruct (section_of data bc).2 as [[]|e]; simpl.
  - split; [by apply prefix_cons|]. intros Hres. by rewrite IHe.
  - split; [|done]. apply prefix_cons, prefix_nil.
Qed.

Lemma banners_summary data :
  banners (summary_section data).1
  = match countByCategory data with
    | Ok _ => [summary_banner]
    | Raise _ => []
    end.
Proof.
  rewrite summary_section_out. destruct (countByCategory data) as [m|e]; [|done].
  cbn [fst]. change (summary_banner :: banners (tally_lines m) = [summary_banner]).
  f_equal. unfold tally_lines. by induction (sorted (map_to_list m)).
Qed.

(** X6: the weapons banner is printed first whatever the catalog holds;
    the banners come in the order weapons, armor, food, resources, summary,
    each at most once; and all five are printed exactly when the program
    ends normally. *)
Theorem report_banners data :
  head (report data).1 = Some (Banner weapons_banner)
  ∧ banners (report data).1 `prefix_of` all_banners
  ∧ (banners (report data).1 = all_banners ↔ (report data).2 = Ok tt).
Proof.
  split.
  { unfold report, weapons. rewrite bind_out, sample_section_out. done. }
  rewrite report_sections, bind_out, bind_res, banners_app.
  destruct (banners_sections data sections) as [Hp He].
  destruct (for_each sections (section_of data)).2 as [[]|e] eqn:Hres.
  - rewrite He, banners_summary, summary_section_out by done.
    destruct (countByCategory data) as [m|e]; split; try done.
    by exists [summary_banner].
  - rewrite app_nil_r.
    change all_banners with (sections.*1 ++ [summary_banner]).
    split; [by apply prefix_app_r|].
    split; [|done]. intros Heq. apply prefix_length in Hp.
    rewrite Heq, length_app in Hp. simpl in Hp. lia.
Qed.

(** ** What a sample line shows *)

Lemma for_each_elem_of {A} (l : list A) body e :
  e ∈ (for_each l body).1 → ∃ x, x ∈ l ∧ e ∈ (body x).1.
Proof.
  induction l as [|x l IH]; [by intros ?%not_elem_of_nil|].
  rewrite for_each_cons, bind_out. intros [Hx|Hl]%elem_of_app.
  - exists x. split; [left|done].
  - destruct (body x).2; [|by apply not_elem_of_nil in Hl].
    destruct (IH Hl) as (y & ? & ?). exists y. split; [by right|done].
Qed.

Lemma sampleByCategory_Ok_inv data category limit sample :
  sampleByCategory data category limit = Ok sample →
  sample = take limit (matches data category).
Proof.
  intros Hs. destruct (missing_category_cases data) as [Hwf|Hex].
  - rewrite (sampleByCategory_take _ _ _ Hwf) in Hs. congruence.
  - unfold sampleByCategory in Hs.
    by rewrite (comprehension_KeyError _ _ Hex) in Hs.
Qed.

Lemma section_of_sample_line data bc k name :
  SampleLine k name ∈ (section_of data bc).1 →
  ∃ v, (k, v) ∈ data ∧ v !! "name" = Some name
       ∧ v !! "category" = Some bc.2.
Proof.
  unfold section_of.
  destruct (sampleByCategory data bc.2 10) as [sample|e] eqn:Hs.
  2: { rewrite sample_section_Raise. by intros [=]%list_elem_of_singleton. }
  rewrite sample_section_Ok. cbn [fst].
  intros [[=]|Hin]%elem_of_cons. apply for_each_elem_of in Hin
    as ([k' v] & Hkv & Hline).
  apply sampleByCategory_Ok_inv in Hs as ->.
  assert ((k', v) ∈ matches data bc.2) as [Hc Hdata]%list_elem_of_filter.
  { eapply elem_of_sublist; [exact Hkv|apply sublist_take]. }
  destruct (v !! "name") as [name'|] eqn:Hname.
  - rewrite (print_sample_line_Some (k', v) name' Hname) in Hline.
    apply list_elem_of_singleton in Hline as [= -> ->]. by exists v.
  - rewrite (print_sample_line_None (k', v) Hname) in Hline.
    by apply not_elem_of_nil in Hline.
Qed.

(** X7: every sample line of the report shows the id and the name of a
    record of the catalog whose category is one of [weapons], [armor],
    [food] and [resources]; records of other categories are never
    sampled. *)
Theorem report_sample_lines_sound data k name :
  SampleLine k name ∈ (report data).1 →
  ∃ v category,
    (k, v) ∈ data
    ∧ v !! "name" = Some name
    ∧ v !! "category" = Some category
    ∧ category ∈ ["weapons"; "armor"; "food"; "resources"].
Proof.
  rewrite report_sections, bind_out. intros [Hin|Hin]%elem_of_app.
  - apply for_each_elem_of in Hin as (bc & Hbc & Hin).
    apply section_of_sample_line in Hin as (v & ? & ? & ?).
    exists v, bc.2. split_and!; [done..|].
    change (bc.2 ∈ sections.*2). by apply list_elem_of_fmap_2.
  - destruct (for_each sections (section_of data)).2;
      [|by apply not_elem_of_nil in Hin].
    rewrite summary_section_out in Hin.
    destruct (countByCategory data) as [m|e];
      [|by apply not_elem_of_nil in Hin].
    cbn [fst] in Hin. apply elem_of_cons in Hin as [[=]|Hin].
    by apply list_elem_of_fmap in Hin as (cc & [=] & _).
Qed.

Lemma report_sample_lines_sound_witness :
  ∃ v category,
    ("1", v) ∈ example_catalog
    ∧ v !! "name" = Some "Sword"
    ∧ v !! "category" = Some category
    ∧ category ∈ ["weapons"; "armor"; "food"; "resources"].
Proof.
  apply (report_sample_lines_sound example_catalog "1" "Sword").
  vm_compute. apply list_elem_of_further, list_elem_of_here.
Defined.

(** ** More on counting *)

Lemma count_loop_KeyError values :
  ∀ acc, Exists (λ v : ItemRecord, v !! "category" = None) values →
  count_loop values acc = Raise (KeyError "category").
Proof.
  induction values as [|v rest IH]; intros acc Hex; [by inv Hex|].
  cbn [count_loop]. unfold getitem.
  destruct (v !! "category") as [cat|] eqn:Hcat; [|done].
  res_simpl. apply IH. inv Hex; by try congruence.
Qed.

Lemma countByCategory_KeyError data :
  Exists (λ kv, ¬ has_category kv) data →
  countByCategory data = Raise (KeyError "category").
Proof.
  intros Hex. apply count_loop_KeyError, Exists_fmap.
  eapply Exists_impl; [exact Hex|]. intros kv Hkv. simpl.
  destruct (kv.2 !! "category") eqn:Hc; [|done].
  destruct Hkv. unfold has_category. by rewrite Hc.
Qed.

(** X8: the tally is computed exactly when every record has a [category];
    otherwise the counting loop stops with [KeyError('category')], whatever
    it had counted before. *)
Theorem countByCategory_outcome data :
  (Forall has_category data ↔ ∃ categories, countByCategory data = Ok categories)
  ∧ (Exists (λ kv, ¬ has_category kv) data
     ↔ countByCategory data = Raise (KeyError "category")).
Proof.
  destruct (missing_category_cases data) as [Hwf|Hex].
  - destruct (countByCategory_lookup data Hwf) as (m & Hm & _).
    pose proof (missing_category_excl data Hwf) as Hnex.
    split; [split; [by exists m|done]|].
    split; [done|]. by rewrite Hm.
  - rewrite (countByCategory_KeyError data Hex).
    split; [|done]. split; [|by intros [m ?]].
    intros Hwf. by destruct (missing_category_excl data Hwf).
Qed.

(** X9: the tally does not depend on the order of the records: catalogs
    that hold the same entries in another order give the same result, be it
    a tally or the error. *)
Theorem countByCategory_Permutation data1 data2 :
  data1 ≡ₚ data2 → countByCategory data1 = countByCategory data2.
Proof.
  intros Hperm. destruct (missing_category_cases data1) as [Hwf|Hex].
  - assert (Forall has_category data2) as Hwf2 by by rewrite <-Hperm.
    destruct (countByCategory_lookup data1 Hwf) as (m1 & -> & H1).
    destruct (countByCategory_lookup data2 Hwf2) as (m2 & -> & H2).
    f_equal. apply map_eq. intros c.
    rewrite H1, H2, !occurrences_matches. unfold matches.
    by rewrite Hperm.
  - assert (Exists (λ kv, ¬ has_category kv) data2) as Hex2
      by by rewrite <-Hperm.
    by rewrite !countByCategory_KeyError.
Qed.

Lemma countByCategory_Permutation_witness :
  countByCategory example_catalog = countByCategory (reverse example_catalog).
Proof.
  apply (countByCategory_Permutation example_catalog (reverse example_catalog)).
  symmetry. apply reverse_Permutation.
Defined.

(** X10: a sample has as many entries as the tally counts for its category,
    up to the limit: [min limit count], with count 0 for a category that is
    not in the tally. *)
Theorem sample_length_tally data category limit :
  Forall has_category data →
  ∃ sample categories,
    sampleByCategory data category limit = Ok sample
    ∧ countByCategory data = Ok categories
    ∧ length sample = limit `min` default 0 (categories !! category).
Proof.
  intros Hwf. destruct (countByCategory_lookup data Hwf) as (m & Hm & Hlookup).
  exists (take limit (matches data category)), m.
  split; [by apply sampleByCategory_take|]. split; [done|].
  rewrite length_take, Hlookup, occurrences_matches.
  by destruct (length (matches data category)).
Qed.

Lemma sample_length_tally_witness :
  ∃ sample categories,
    sampleByCategory example_catalog "food" 10 = Ok sample
    ∧ countByCategory example_catalog = Ok categories
    ∧ length sample = 10 `min` default 0 (categories !! "food").
Proof.
  apply (sample_length_tally example_catalog "food" 10).
  repeat constructor; by eexists.
Defined.



(** ** The order of the sample lines *)

(** X12: whatever the catalog, the ids on the sample lines of a section are
    the ids of the first records of that category, in catalog order, with
    none skipped: a prefix of the ids of the first ten matching records. *)
Theorem section_ids_prefix data banner category :
  sampled_ids (sample_section banner (sampleByCategory data category 10)).1
  `prefix_of` (sampled data category).*1
  ∧ sampled_ids (sample_section banner (sampleByCategory data category 10)).1
    `sublist_of` data.*1.
Proof.
  assert (sampled_ids
            (sample_section banner (sampleByCategory data category 10)).1
          `prefix_of` (sampled data category).*1) as Hp.
  { destruct (sampleByCategory data category 10) as [sample|e] eqn:Hs.
    - apply sampleByCategory_Ok_inv in Hs as ->.
      rewrite sample_section_Ok. cbn [fst]. rewrite sampled_ids_banner.
      apply sample_lines_ids.
    - rewrite sample_section_Raise. apply prefix_nil. }
  split; [done|]. destruct Hp as [tl Htl].
  etrans; [|apply fmap_sublist, (sublist_filter (category_is category))].
  etrans; [|apply fmap_sublist, (sublist_take _ 10)].
  fold (matches data category). fold (sampled data category).
  rewrite Htl. by apply sublist_inserts_r.
Qed.
